(** * jutge-driver-std: the two C++ exception harnesses

    Shallow embedding of
      - [src/std/etc/PRO2/__judge_main.cc]  (module [PRO2]: the entry point
        that calls the renamed submission entry point [main__2]), and
      - [src/std/etc/cc/stub.cc]            (module [Stub]: the terminate
        hook and the pre-main initialiser),
    over a small model of the part of the C++ runtime they use: exceptions
    and handler selection, [raise], [_Exit], [std::terminate], and the two
    iostream settings. *)

From Stdlib Require Import ZArith List String Bool Lia.
Import ListNotations.
Local Open Scope string_scope.
Local Open Scope list_scope.

(* ------------------------------------------------------------------ *)
(** ** Exception objects *)

#[local] Set Warnings "-register-all".

(** How a base class is named in a class head. For handler matching
    [protected] counts as [Private]. *)
Inductive access : Type := Public | Private.

(** A class type with its direct base classes, in declaration order.
    Bases are non-virtual: virtual inheritance is not part of this model.
    A class may have several bases, so the same class can be a base more
    than once ([struct E : std::bad_alloc, std::runtime_error] holds two
    [std::exception] subobjects). *)
Inductive class : Type :=
| Class (name : string) (bases : list (access * class)).

Definition std_exception : class := Class "std::exception" [].
Definition std_bad_alloc : class :=
  Class "std::bad_alloc" [(Public, std_exception)].
Definition std_bad_array_new_length : class :=
  Class "std::bad_array_new_length" [(Public, std_bad_alloc)].
Definition std_runtime_error : class :=
  Class "std::runtime_error" [(Public, std_exception)].
Definition std_logic_error : class :=
  Class "std::logic_error" [(Public, std_exception)].
Definition std_out_of_range : class :=
  Class "std::out_of_range" [(Public, std_logic_error)].

Definition access_eqb (a b : access) : bool :=
  match a, b with
  | Public, Public | Private, Private => true
  | _, _ => false
  end.

Fixpoint class_eqb (c d : class) : bool :=
  match c, d with
  | Class n bs, Class m ds =>
      String.eqb n m &&
      (fix bases_eqb (xs ys : list (access * class)) : bool :=
         match xs, ys with
         | [], [] => true
         | (a, x) :: xs', (b, y) :: ys' =>
             access_eqb a b && class_eqb x y && bases_eqb xs' ys'
         | _, _ => false
         end) bs ds
  end.

(** Number of base class subobjects of type [T] in an object of class
    [c], over every derivation path, whatever its access. *)
Fixpoint subobjects (T c : class) : nat :=
  match c with
  | Class _ bs =>
      (fix over_bases (xs : list (access * class)) : nat :=
         match xs with
         | [] => O
         | (_, b) :: xs' =>
             ((if class_eqb b T then 1 else 0) + subobjects T b
              + over_bases xs')%nat
         end) bs
  end.

(** [T] is reached from [c] along a path of public derivations only. *)
Fixpoint public_path (T c : class) : bool :=
  match c with
  | Class _ bs =>
      (fix over_bases (xs : list (access * class)) : bool :=
         match xs with
         | [] => false
         | (a, b) :: xs' =>
             (access_eqb a Public && (class_eqb b T || public_path T b))
             || over_bases xs'
         end) bs
  end.

(** [inherits_from c T]: [c] is [T] or has [T] among its base classes, in
    whatever way. *)
Definition inherits_from (c T : class) : bool :=
  class_eqb c T || negb (Nat.eqb (subobjects T c) 0).

(** [derives_from c T]: an object of class [c] can be bound to a [T&] by a
    handler: [c] is [T], or [T] is an unambiguous public base class of [c]
    (exactly one subobject of type [T], reached by public derivation). *)
Definition derives_from (c T : class) : bool :=
  class_eqb c T || (Nat.eqb (subobjects T c) 1 && public_path T c).

(** What a [throw] expression can throw: an object of class type, or a
    value that is no exception object at all ([throw 42;], [throw "x";]). *)
Inductive thrown : Type :=
| ThrowObject (c : class)
| ThrowInt (n : Z)
| ThrowCString (s : string).

(* ------------------------------------------------------------------ *)
(** ** Process state *)

Inductive signal : Type := SIGABRT | SIGUSR1 | SIGUSR2.

Definition signal_eqb (a b : signal) : bool :=
  match a, b with
  | SIGABRT, SIGABRT | SIGUSR1, SIGUSR1 | SIGUSR2, SIGUSR2 => true
  | _, _ => false
  end.

(** What a signal raised by the thread meets. Not blocked by the thread's
    signal mask, it is delivered at once: with the default action
    ([SIG_DFL]; for the three signals above: terminate the process),
    ignored ([SIG_IGN]), or caught by a handler of the program that returns
    ([SIG_CATCH]). Blocked by the signal mask ([SIG_MASKED], whatever its
    action), it stays pending and nothing happens to the thread. *)
Inductive sigdisp : Type := SIG_DFL | SIG_IGN | SIG_CATCH | SIG_MASKED.

(** How a process ends, as its parent reads it from the wait status. *)
Inductive termination : Type :=
| Exited (status : Z)
| Killed (s : signal).

(** What the process does that the harnesses care about, in order. *)
Inductive event : Type :=
| Raised (s : signal)
| Terminated (t : termination).

(** The single slot of [std::set_terminate]. *)
Inductive terminate_handler : Type :=
| default_terminate
| stub_on_terminate.

Inductive ostream : Type := cout | cerr.

Record world : Type := mkWorld {
  sync_stdio : bool;                  (* ios_base::sync_with_stdio setting *)
  cin_tied : option ostream;          (* cin.tie() *)
  terminate_slot : terminate_handler; (* std::get_terminate() *)
  current_exc : option thrown;        (* std::current_exception() *)
  disposition : signal -> sigdisp;
  trace : list event
}.

Definition set_sync_stdio (b : bool) (w : world) : world :=
  mkWorld b (cin_tied w) (terminate_slot w) (current_exc w)
          (disposition w) (trace w).

Definition set_cin_tied (o : option ostream) (w : world) : world :=
  mkWorld (sync_stdio w) o (terminate_slot w) (current_exc w)
          (disposition w) (trace w).

Definition set_terminate_slot (h : terminate_handler) (w : world) : world :=
  mkWorld (sync_stdio w) (cin_tied w) h (current_exc w)
          (disposition w) (trace w).

Definition set_current_exc (e : option thrown) (w : world) : world :=
  mkWorld (sync_stdio w) (cin_tied w) (terminate_slot w) e
          (disposition w) (trace w).

Definition set_disposition (s : signal) (d : sigdisp) (w : world) : world :=
  mkWorld (sync_stdio w) (cin_tied w) (terminate_slot w) (current_exc w)
          (fun s' => if signal_eqb s' s then d else disposition w s')
          (trace w).

Definition log (ev : event) (w : world) : world :=
  mkWorld (sync_stdio w) (cin_tied w) (terminate_slot w) (current_exc w)
          (disposition w) (trace w ++ [ev]).

(** A freshly started process: streams synchronised, [cin] tied to [cout],
    the default terminate handler, every signal at its default action. *)
Definition fresh_world : world :=
  mkWorld true (Some cout) default_terminate None (fun _ => SIG_DFL) [].

(* ------------------------------------------------------------------ *)
(** ** Computations: state, exceptions, process termination *)

Inductive result (A : Type) : Type :=
| Normal (a : A) (w : world)        (* completed with a value *)
| Throwing (e : thrown) (w : world) (* left by an exception being unwound *)
| Halt (t : termination) (w : world). (* the process is gone *)

Arguments Normal {A} a w.
Arguments Throwing {A} e w.
Arguments Halt {A} t w.

Definition Proc (A : Type) : Type := world -> result A.

Definition ret {A} (a : A) : Proc A := fun w => Normal a w.

Definition bind {A B} (m : Proc A) (k : A -> Proc B) : Proc B :=
  fun w =>
    match m w with
    | Normal a w' => k a w'
    | Throwing e w' => Throwing e w'
    | Halt t w' => Halt t w'
    end.

Notation "x <- m ;; k" := (bind m (fun x => k))
  (at level 61, m at next level, right associativity).
Notation "m ;; k" := (bind m (fun _ => k))
  (at level 61, right associativity).

Definition world_of {A} (r : result A) : world :=
  match r with
  | Normal _ w | Throwing _ w | Halt _ w => w
  end.

(** *** Runtime primitives *)

(** [throw e;] and [std::rethrow_exception(p)] for a non-null [p]. *)
Definition throw_ {A} (e : thrown) : Proc A := fun w => Throwing e w.
Definition rethrow_exception {A} (e : thrown) : Proc A := throw_ e.

Definition current_exception : Proc (option thrown) :=
  fun w => Normal (current_exc w) w.

(** [raise(sig)]: the signal is sent to the calling thread. Delivered with
    the default action it terminates the process and [raise] does not
    return; ignored, caught by a handler that returns, or blocked and left
    pending, [raise] returns 0. *)
Definition raise (s : signal) : Proc Z :=
  fun w =>
    let w' := log (Raised s) w in
    match disposition w s with
    | SIG_DFL => Halt (Killed s) (log (Terminated (Killed s)) w')
    | SIG_IGN => Normal 0%Z w'
    | SIG_CATCH => Normal 0%Z w'
    | SIG_MASKED => Normal 0%Z w'
    end.

(** [signal(sig, SIG_IGN)], [sigprocmask(SIG_BLOCK, ...)] and the like, as
    a submission may call them: they change what a later [raise] meets and
    return what it would have met before. *)
Definition set_signal (s : signal) (d : sigdisp) : Proc sigdisp :=
  fun w => Normal (disposition w s) (set_disposition s d w).

(** [std::_Exit(status)] and [exit(status)]: never return. *)
Definition _Exit {A} (status : Z) : Proc A :=
  fun w => Halt (Exited status) (log (Terminated (Exited status)) w).

Definition exit {A} (status : Z) : Proc A :=
  fun w => Halt (Exited status) (log (Terminated (Exited status)) w).

(** [abort()]: ends the process by SIGABRT whatever its disposition. *)
Definition abort {A} : Proc A :=
  fun w => Halt (Killed SIGABRT) (log (Terminated (Killed SIGABRT)) w).

(** [ios_base::sync_with_stdio(b)] returns the previous setting;
    [cin.tie(p)] returns the previously tied stream. *)
Definition sync_with_stdio (b : bool) : Proc bool :=
  fun w => Normal (sync_stdio w) (set_sync_stdio b w).

Definition cin_tie (p : option ostream) : Proc (option ostream) :=
  fun w => Normal (cin_tied w) (set_cin_tied p w).

Definition set_terminate (h : terminate_handler) : Proc terminate_handler :=
  fun w => Normal (terminate_slot w) (set_terminate_slot h w).

(** *** try / catch *)

Inductive handler_decl : Type :=
| catch_ref (T : class)   (* catch (T& x) *)
| catch_all.              (* catch (...)  *)

Definition handles (h : handler_decl) (e : thrown) : bool :=
  match h, e with
  | catch_all, _ => true
  | catch_ref T, ThrowObject c => derives_from c T
  | catch_ref _, _ => false
  end.

(** Handlers are tried in order of appearance. *)
Fixpoint find_handler {A} (hs : list (handler_decl * Proc A)) (e : thrown)
  : option (Proc A) :=
  match hs with
  | [] => None
  | (h, body) :: rest =>
      if handles h e then Some body else find_handler rest e
  end.

(** [try { body } catch ... ]: inside the selected handler the exception is
    the current one; leaving the handler normally restores the previous. *)
Definition try_catch {A} (body : Proc A) (hs : list (handler_decl * Proc A))
  : Proc A :=
  fun w =>
    match body w with
    | Throwing e w1 =>
        match find_handler hs e with
        | Some h =>
            match h (set_current_exc (Some e) w1) with
            | Normal a w2 => Normal a (set_current_exc (current_exc w1) w2)
            | r => r
            end
        | None => Throwing e w1
        end
    | r => r
    end.

(** A function call whose frame has no handler: an exception leaving the
    callee keeps unwinding through it. *)
Definition call {A} (f : Proc A) : Proc A :=
  fun w =>
    match f w with
    | Normal a w' => Normal a w'
    | Throwing e w' => Throwing e w'
    | Halt t w' => Halt t w'
    end.

(** [body] reached through [depth] nested calls. *)
Fixpoint nested {A} (depth : nat) (body : Proc A) : Proc A :=
  match depth with
  | O => body
  | S d => call (nested d body)
  end.

(** How a statement sequence of a function returning [int] completes: by a
    [return v;] or by reaching its end. *)
Definition return_ (v : Z) : Proc (option Z) := ret (Some v).
Definition fall_through : Proc (option Z) := ret None.

(** Reaching the closing brace of [main] is [return 0;]. *)
Definition end_of_main (r : option Z) : Proc Z :=
  ret (match r with Some v => v | None => 0%Z end).

(* ------------------------------------------------------------------ *)
(** ** src/std/etc/PRO2/__judge_main.cc *)

Module PRO2.

Section Main.

(** [int main__2 ();] the submission's renamed entry point. *)
Variable main__2 : Proc Z.

Definition main : Proc Z :=
  sync_with_stdio false ;;
  cin_tie None ;;
  r <- try_catch
         (v <- call main__2 ;; return_ v)
         [ (catch_ref std_bad_alloc, raise SIGUSR1 ;; fall_through);
           (catch_ref std_exception, raise SIGUSR2 ;; fall_through);
           (catch_all,               raise SIGUSR2 ;; fall_through) ] ;;
  end_of_main r.

End Main.

End PRO2.

(* ------------------------------------------------------------------ *)
(** ** src/std/etc/cc/stub.cc *)

Module Stub.

Definition jutge__stub__on_terminate : Proc unit :=
  exc <- current_exception ;;
  match exc with
  | Some e =>
      try_catch
        (rethrow_exception e)
        [ (catch_ref std_bad_alloc, raise SIGUSR1 ;; ret tt);
          (catch_ref std_exception, raise SIGUSR2 ;; ret tt);
          (catch_all,               raise SIGUSR2 ;; ret tt) ]
  | None => ret tt
  end ;;
  _Exit 0%Z.

Definition jutge__stub__before_main : Proc Z :=
  set_terminate stub_on_terminate ;;
  sync_with_stdio false ;;
  cin_tie None ;;
  ret 999%Z.

End Stub.

(* ------------------------------------------------------------------ *)
(** ** The runtime around the entry point *)

(** [std::terminate()]: calls the installed handler; a handler that comes
    back is followed by [abort()]. *)
Definition std_terminate {A} : Proc A :=
  fun w =>
    match terminate_slot w with
    | default_terminate => abort w
    | stub_on_terminate => (Stub.jutge__stub__on_terminate ;; abort) w
    end.

(** Program start-up: static initialisation, then the entry point; its
    return value goes to [exit], an exception leaving it to
    [std::terminate] (with that exception as the current one). *)
Definition start {A} (static_init : Proc A) (entry : Proc Z) : Proc Z :=
  fun w =>
    match (static_init ;; call entry) w with
    | Normal v w1 => exit v w1
    | Throwing e w1 => std_terminate (set_current_exc (Some e) w1)
    | Halt t w1 => Halt t w1
    end.

(** The process built with each harness, for a given submission. *)
Definition entry_redirect_process (submission : Proc Z) : Proc Z :=
  start (ret tt) (PRO2.main submission).

Definition terminate_hook_process (submission : Proc Z) : Proc Z :=
  start Stub.jutge__stub__before_main submission.

(* ------------------------------------------------------------------ *)
(** ** The classification policy, as the specification words it *)

Module FailureClassifier.

(** A two-way decision: resource exhaustion, or anything else. *)
Inductive category : Type := ResourceExhaustion | Other.

(** Resource exhaustion: [std::bad_alloc] or an exception derived from it,
    read as the failures a [bad_alloc&] can be bound to ([derives_from]). *)
Definition is_resource_exhaustion (e : thrown) : bool :=
  match e with
  | ThrowObject c => derives_from c std_bad_alloc
  | ThrowInt _ | ThrowCString _ => false
  end.

Definition classify (e : thrown) : category :=
  if is_resource_exhaustion e then ResourceExhaustion else Other.

(** Resource exhaustion is reported by signal A, the rest by signal B. *)
Definition signal_for (c : category) : signal :=
  match c with
  | ResourceExhaustion => SIGUSR1
  | Other => SIGUSR2
  end.

End FailureClassifier.

(* ------------------------------------------------------------------ *)
(** ** Observations on a run *)

Fixpoint signals_raised (evs : list event) : list signal :=
  match evs with
  | [] => []
  | Raised s :: rest => s :: signals_raised rest
  | Terminated _ :: rest => signals_raised rest
  end.

Fixpoint terminations (evs : list event) : list termination :=
  match evs with
  | [] => []
  | Raised _ :: rest => terminations rest
  | Terminated t :: rest => t :: terminations rest
  end.

(** The events a computation started in [w] added to the trace. *)
Definition new_events {A} (w : world) (r : result A) : list event :=
  skipn (List.length (trace w)) (trace (world_of r)).

(** The stream settings both harnesses establish before the submission
    runs ([__judge_main.cc] lines 16-17, [stub.cc] lines 34-35). *)
Definition io_desynchronization : Proc unit :=
  sync_with_stdio false ;;
  cin_tie None ;;
  ret tt.

Fixpoint repeat_proc (n : nat) (p : Proc unit) : Proc unit :=
  match n with
  | O => ret tt
  | S k => p ;; repeat_proc k p
  end.

(** The world in which each harness hands control to the submission. *)
Definition desynchronized (w : world) : world :=
  set_cin_tied None (set_sync_stdio false w).

Definition hook_installed (w : world) : world :=
  desynchronized (set_terminate_slot stub_on_terminate w).

(** Some submissions and worlds to run the harnesses on. *)
Definition ignoring (s : signal) (w : world) : world :=
  set_disposition s SIG_IGN w.

Definition returns_7 : Proc Z := ret 7%Z.
Definition throws_bad_alloc : Proc Z := throw_ (ThrowObject std_bad_alloc).
Definition throws_runtime_error : Proc Z :=
  throw_ (ThrowObject std_runtime_error).
Definition throws_42 : Proc Z := throw_ (ThrowInt 42).

(** Submissions that first change what the harness will meet: SIGUSR1
    ignored or blocked, the default terminate handler put back. *)
Definition ignores_SIGUSR1_then_throws : Proc Z :=
  set_signal SIGUSR1 SIG_IGN ;; throws_bad_alloc.
Definition blocks_SIGUSR1_then_throws : Proc Z :=
  set_signal SIGUSR1 SIG_MASKED ;; throws_bad_alloc.
Definition restores_default_then_throws : Proc Z :=
  set_terminate default_terminate ;; throws_bad_alloc.
Definition restores_default_then_throws_42 : Proc Z :=
  set_terminate default_terminate ;; throws_42.

(** Classes a submission may define on top of [std::bad_alloc]:
    [class P : std::bad_alloc {}] (private by default),
    [struct D : std::bad_alloc, std::bad_array_new_length {}] (two
    [std::bad_alloc] subobjects) and
    [struct E : std::bad_alloc, std::runtime_error {}] (two
    [std::exception] subobjects). *)
Definition private_bad_alloc : class :=
  Class "P" [(Private, std_bad_alloc)].
Definition twice_bad_alloc : class :=
  Class "D" [(Public, std_bad_alloc); (Public, std_bad_array_new_length)].
Definition bad_alloc_and_runtime_error : class :=
  Class "E" [(Public, std_bad_alloc); (Public, std_runtime_error)].

(* ------------------------------------------------------------------ *)
(** ** Basic facts about the runtime model *)

Import FailureClassifier.

Lemma call_transparent {A} (f : Proc A) (w : world) : call f w = f w.
Proof. unfold call. destruct (f w); reflexivity. Qed.

Lemma nested_transparent {A} (depth : nat) (body : Proc A) (w : world) :
  nested depth body w = body w.
Proof.
  induction depth as [|d IH]; simpl.
  - reflexivity.
  - rewrite call_transparent. exact IH.
Qed.

(** Resource exhaustion covers [std::bad_alloc] itself and the class the
    standard library derives from it. *)
Lemma bad_alloc_is_resource_exhaustion :
  is_resource_exhaustion (ThrowObject std_bad_alloc) = true /\
  is_resource_exhaustion (ThrowObject std_bad_array_new_length) = true.
Proof. split; reflexivity. Qed.

(** The first handler of both cascades is taken exactly for the failures
    the policy calls resource exhaustion. *)
Lemma handles_bad_alloc (e : thrown) :
  handles (catch_ref std_bad_alloc) e = is_resource_exhaustion e.
Proof. destruct e; reflexivity. Qed.

Lemma signal_for_classify (e : thrown) :
  signal_for (classify e) =
  if is_resource_exhaustion e then SIGUSR1 else SIGUSR2.
Proof. unfold classify. destruct (is_resource_exhaustion e); reflexivity. Qed.

(** Handler selection in [main]: the second and the third handler have the
    same body, so the choice is between two bodies only. *)
Lemma find_handler_main (e : thrown) :
  find_handler
    [ (catch_ref std_bad_alloc, raise SIGUSR1 ;; fall_through);
      (catch_ref std_exception, raise SIGUSR2 ;; fall_through);
      (catch_all,               raise SIGUSR2 ;; fall_through) ] e
  = Some (raise (signal_for (classify e)) ;; fall_through).
Proof.
  cbn [find_handler]. rewrite handles_bad_alloc, signal_for_classify.
  destruct (is_resource_exhaustion e); [reflexivity|].
  destruct (handles (catch_ref std_exception) e); reflexivity.
Qed.

Lemma find_handler_hook (e : thrown) :
  find_handler
    [ (catch_ref std_bad_alloc, raise SIGUSR1 ;; ret tt);
      (catch_ref std_exception, raise SIGUSR2 ;; ret tt);
      (catch_all,               raise SIGUSR2 ;; ret tt) ] e
  = Some (raise (signal_for (classify e)) ;; ret tt).
Proof.
  cbn [find_handler]. rewrite handles_bad_alloc, signal_for_classify.
  destruct (is_resource_exhaustion e); [reflexivity|].
  destruct (handles (catch_ref std_exception) e); reflexivity.
Qed.

(** The world once the handler for [e], entered in [w], has called
    [raise s]. *)
Definition signalled (e : thrown) (s : signal) (w : world) : world :=
  log (Raised s) (set_current_exc (Some e) w).

Lemma trace_signalled e s w : trace (signalled e s w) = trace w ++ [Raised s].
Proof. reflexivity. Qed.

Lemma new_events_app {A} (w : world) (r : result A) (evs : list event) :
  trace (world_of r) = trace w ++ evs -> new_events w r = evs.
Proof.
  unfold new_events. intros ->.
  rewrite skipn_app, skipn_all, Nat.sub_diag. reflexivity.
Qed.

(** *** What [main] does, case by case *)

Lemma main_returns (main__2 : Proc Z) (w0 w1 : world) (v : Z) :
  main__2 (desynchronized w0) = Normal v w1 ->
  PRO2.main main__2 w0 = Normal v w1.
Proof.
  intros H. unfold PRO2.main, bind, sync_with_stdio, cin_tie, try_catch.
  rewrite call_transparent.
  change (set_cin_tied None (set_sync_stdio false w0)) with (desynchronized w0).
  rewrite H. reflexivity.
Qed.

Lemma main_halts (main__2 : Proc Z) (w0 w1 : world) (t : termination) :
  main__2 (desynchronized w0) = Halt t w1 ->
  PRO2.main main__2 w0 = Halt t w1.
Proof.
  intros H. unfold PRO2.main, bind, sync_with_stdio, cin_tie, try_catch.
  rewrite call_transparent.
  change (set_cin_tied None (set_sync_stdio false w0)) with (desynchronized w0).
  rewrite H. reflexivity.
Qed.

Lemma main_catches (main__2 : Proc Z) (w0 w1 : world) (e : thrown) :
  main__2 (desynchronized w0) = Throwing e w1 ->
  PRO2.main main__2 w0 =
  let s := signal_for (classify e) in
  match disposition w1 s with
  | SIG_DFL => Halt (Killed s) (log (Terminated (Killed s)) (signalled e s w1))
  | _ => Normal 0%Z (set_current_exc (current_exc w1) (signalled e s w1))
  end.
Proof.
  intros H. unfold PRO2.main.
  unfold bind at 1 2 3. unfold sync_with_stdio, cin_tie, try_catch.
  change (set_cin_tied None (set_sync_stdio false w0)) with (desynchronized w0).
  unfold bind at 1. rewrite call_transparent, H.
  rewrite find_handler_main.
  unfold bind, raise, fall_through, end_of_main, ret, signalled. cbn [disposition set_current_exc].
  destruct (disposition w1 (signal_for (classify e))); reflexivity.
Qed.

Lemma main_catches_by_raise (main__2 : Proc Z) (w0 w1 : world) (e : thrown) :
  main__2 (desynchronized w0) = Throwing e w1 ->
  PRO2.main main__2 w0 =
  match raise (signal_for (classify e)) (set_current_exc (Some e) w1) with
  | Normal _ w' => Normal 0%Z (set_current_exc (current_exc w1) w')
  | Throwing e' w' => Throwing e' w'
  | Halt t w' => Halt t w'
  end.
Proof.
  intros H. rewrite (main_catches _ _ _ _ H). cbv zeta.
  unfold raise, signalled. cbn [disposition set_current_exc].
  destruct (disposition w1 (signal_for (classify e))); reflexivity.
Qed.

(** *** What the hook does, case by case *)

Lemma hook_quiet (w : world) :
  current_exc w = None ->
  Stub.jutge__stub__on_terminate w =
  Halt (Exited 0) (log (Terminated (Exited 0)) w).
Proof.
  intros H. unfold Stub.jutge__stub__on_terminate, bind, current_exception.
  rewrite H. reflexivity.
Qed.

Lemma hook_classifies (w : world) (e : thrown) :
  current_exc w = Some e ->
  Stub.jutge__stub__on_terminate w =
  let s := signal_for (classify e) in
  match disposition w s with
  | SIG_DFL => Halt (Killed s) (log (Terminated (Killed s)) (signalled e s w))
  | _ => Halt (Exited 0)
           (log (Terminated (Exited 0))
                (set_current_exc (Some e) (signalled e s w)))
  end.
Proof.
  intros H. unfold Stub.jutge__stub__on_terminate.
  unfold bind at 1. unfold current_exception. rewrite H.
  unfold bind at 1. unfold try_catch, rethrow_exception, throw_.
  rewrite find_handler_hook, H.
  unfold bind, raise, ret, _Exit, signalled. cbn [disposition set_current_exc].
  destruct (disposition w (signal_for (classify e))); reflexivity.
Qed.

(** *** The two processes, case by case on what the submission does *)

Lemma io_desynchronization_world (w : world) :
  io_desynchronization w = Normal tt (desynchronized w).
Proof. reflexivity. Qed.

Lemma before_main_world (w : world) :
  Stub.jutge__stub__before_main w = Normal 999%Z (hook_installed w).
Proof. reflexivity. Qed.

Lemma entry_process_unfold (sub : Proc Z) (w0 : world) :
  entry_redirect_process sub w0 =
  match PRO2.main sub w0 with
  | Normal v w1 => exit v w1
  | Throwing e w1 => std_terminate (set_current_exc (Some e) w1)
  | Halt t w1 => Halt t w1
  end.
Proof.
  unfold entry_redirect_process, start, bind, ret.
  rewrite call_transparent. reflexivity.
Qed.

Lemma hook_process_unfold (sub : Proc Z) (w0 : world) :
  terminate_hook_process sub w0 =
  match sub (hook_installed w0) with
  | Normal v w1 => exit v w1
  | Throwing e w1 => std_terminate (set_current_exc (Some e) w1)
  | Halt t w1 => Halt t w1
  end.
Proof.
  unfold terminate_hook_process, start, bind.
  rewrite before_main_world, call_transparent. reflexivity.
Qed.

(** The wait status a classified failure ends in, by the disposition of the
    signal chosen for it. *)
Definition status_after_raise (w : world) (s : signal) : termination :=
  match disposition w s with
  | SIG_DFL => Killed s
  | SIG_IGN | SIG_CATCH | SIG_MASKED => Exited 0
  end.

Lemma entry_process_on_exception (sub : Proc Z) (w0 w1 : world) (e : thrown) :
  sub (desynchronized w0) = Throwing e w1 ->
  exists w2,
    entry_redirect_process sub w0 =
      Halt (status_after_raise w1 (signal_for (classify e))) w2 /\
    trace w2 =
      trace w1 ++ [Raised (signal_for (classify e));
                   Terminated (status_after_raise w1 (signal_for (classify e)))].
Proof.
  intros H. rewrite entry_process_unfold, (main_catches _ _ _ _ H).
  unfold status_after_raise. cbv zeta.
  destruct (disposition w1 (signal_for (classify e)));
    eexists; (split; [reflexivity|]); cbn [trace exit log set_current_exc];
    rewrite trace_signalled, <- app_assoc; reflexivity.
Qed.

Lemma hook_process_on_exception (sub : Proc Z) (w0 w1 : world) (e : thrown) :
  sub (hook_installed w0) = Throwing e w1 ->
  terminate_slot w1 = stub_on_terminate ->
  exists w2,
    terminate_hook_process sub w0 =
      Halt (status_after_raise w1 (signal_for (classify e))) w2 /\
    trace w2 =
      trace w1 ++ [Raised (signal_for (classify e));
                   Terminated (status_after_raise w1 (signal_for (classify e)))].
Proof.
  intros H Hslot. rewrite hook_process_unfold, H.
  unfold std_terminate. cbn [terminate_slot set_current_exc]. rewrite Hslot.
  unfold bind at 1.
  rewrite (hook_classifies (set_current_exc (Some e) w1) e eq_refl).
  unfold status_after_raise. cbv zeta. cbn [disposition set_current_exc].
  destruct (disposition w1 (signal_for (classify e)));
    eexists; (split; [reflexivity|]); cbn [trace log set_current_exc signalled];
    rewrite <- app_assoc; reflexivity.
Qed.

(* ------------------------------------------------------------------ *)
(** ** Classification of escaping failures *)

(** C1, as the specification states it, fails, in three ways. A submission
    that has SIGUSR1 ignored and then lets [std::bad_alloc] escape raises
    SIGUSR1 under both harnesses but ends with exit status 0, not by the
    signal. Under the hook harness a submission that has put the default
    terminate handler back ends by SIGABRT with no signal raised. And a
    class that has [std::bad_alloc] as a private base is derived from it
    but is not bound by [catch (bad_alloc&)]: it is reported by SIGUSR2. *)
Lemma resource_exhaustion_not_always_SIGUSR1 :
  trace (world_of
           (entry_redirect_process ignores_SIGUSR1_then_throws fresh_world))
    = [Raised SIGUSR1; Terminated (Exited 0)] /\
  trace (world_of
           (terminate_hook_process ignores_SIGUSR1_then_throws fresh_world))
    = [Raised SIGUSR1; Terminated (Exited 0)] /\
  trace (world_of
           (terminate_hook_process restores_default_then_throws fresh_world))
    = [Terminated (Killed SIGABRT)] /\
  inherits_from private_bad_alloc std_bad_alloc = true /\
  trace (world_of
           (entry_redirect_process
              (throw_ (ThrowObject private_bad_alloc)) fresh_world))
    = [Raised SIGUSR2; Terminated (Killed SIGUSR2)] /\
  trace (world_of
           (terminate_hook_process
              (throw_ (ThrowObject private_bad_alloc)) fresh_world))
    = [Raised SIGUSR2; Terminated (Killed SIGUSR2)].
Proof. repeat split; reflexivity. Qed.

(** C1, amended. Let the submission be any [body] reached through [depth]
    nested calls, and let the failure [e] that leaves it uncaught be one
    that [catch (bad_alloc&)] binds: [std::bad_alloc] or a class with
    [std::bad_alloc] as an unambiguous public base. Then under each harness
    (for the hook harness: with the hook still installed when the failure
    escapes) the process raises SIGUSR1 and nothing else and then ends:
    killed by SIGUSR1 when the signal meets its default action, with exit
    status 0 when it is ignored, caught or blocked. *)
Theorem resource_exhaustion_ends_by_SIGUSR1 :
  forall (body : Proc Z) (depth : nat) (e : thrown) (w0 : world),
    is_resource_exhaustion e = true ->
    (forall w1,
        body (desynchronized w0) = Throwing e w1 ->
        exists t w2,
          entry_redirect_process (nested depth body) w0 = Halt t w2 /\
          trace w2 = trace w1 ++ [Raised SIGUSR1; Terminated t] /\
          (disposition w1 SIGUSR1 = SIG_DFL -> t = Killed SIGUSR1) /\
          (disposition w1 SIGUSR1 <> SIG_DFL -> t = Exited 0))
    /\
    (forall w1,
        body (hook_installed w0) = Throwing e w1 ->
        terminate_slot w1 = stub_on_terminate ->
        exists t w2,
          terminate_hook_process (nested depth body) w0 = Halt t w2 /\
          trace w2 = trace w1 ++ [Raised SIGUSR1; Terminated t] /\
          (disposition w1 SIGUSR1 = SIG_DFL -> t = Killed SIGUSR1) /\
          (disposition w1 SIGUSR1 <> SIG_DFL -> t = Exited 0)).
Proof.
  intros body depth e w0 He.
  assert (Hs : signal_for (classify e) = SIGUSR1)
    by (rewrite signal_for_classify, He; reflexivity).
  split; intros w1 Hbody.
  - destruct (entry_process_on_exception (nested depth body) w0 w1 e)
      as (w2 & Hrun & Htr).
    { rewrite nested_transparent. exact Hbody. }
    rewrite Hs in Hrun, Htr.
    exists (status_after_raise w1 SIGUSR1), w2.
    split; [exact Hrun|]. split; [exact Htr|].
    unfold status_after_raise. split; intros Hd.
    + rewrite Hd. reflexivity.
    + destruct (disposition w1 SIGUSR1); [contradiction | | |]; reflexivity.
  - intros Hslot.
    destruct (hook_process_on_exception (nested depth body) w0 w1 e)
      as (w2 & Hrun & Htr); trivial.
    { rewrite nested_transparent. exact Hbody. }
    rewrite Hs in Hrun, Htr.
    exists (status_after_raise w1 SIGUSR1), w2.
    split; [exact Hrun|]. split; [exact Htr|].
    unfold status_after_raise. split; intros Hd.
    + rewrite Hd. reflexivity.
    + destruct (disposition w1 SIGUSR1); [contradiction | | |]; reflexivity.
Qed.

Lemma resource_exhaustion_ends_by_SIGUSR1_witness :
  (exists w2,
      entry_redirect_process (nested 3 throws_bad_alloc) fresh_world
        = Halt (Killed SIGUSR1) w2 /\
      trace w2 = [Raised SIGUSR1; Terminated (Killed SIGUSR1)])
  /\
  (exists w2,
      terminate_hook_process (nested 3 throws_bad_alloc) fresh_world
        = Halt (Killed SIGUSR1) w2 /\
      trace w2 = [Raised SIGUSR1; Terminated (Killed SIGUSR1)]).
Proof.
  destruct (resource_exhaustion_ends_by_SIGUSR1
              throws_bad_alloc 3 (ThrowObject std_bad_alloc) fresh_world
              eq_refl) as [Hentry Hhook].
  split.
  - destruct (Hentry (desynchronized fresh_world) eq_refl)
      as (t & w2 & Hrun & Htr & Hdfl & _).
    exists w2. rewrite <- (Hdfl eq_refl). split; assumption.
  - destruct (Hhook (hook_installed fresh_world) eq_refl eq_refl)
      as (t & w2 & Hrun & Htr & Hdfl & _).
    exists w2. rewrite <- (Hdfl eq_refl). split; assumption.
Defined.

(** C2, as the specification states it, fails under the hook harness: a
    submission that has put the default terminate handler back and then
    lets [throw 42;] escape ends by SIGABRT, and SIGUSR2 is never raised. *)
Lemma other_failure_without_hook_raises_nothing :
  is_resource_exhaustion (ThrowInt 42) = false /\
  restores_default_then_throws_42 (hook_installed fresh_world) =
    Throwing (ThrowInt 42)
             (set_terminate_slot default_terminate
                                 (hook_installed fresh_world)) /\
  trace (world_of
           (terminate_hook_process restores_default_then_throws_42
                                   fresh_world))
    = [Terminated (Killed SIGABRT)].
Proof. repeat split; reflexivity. Qed.

(** C2, amended. Let the failure [e] that leaves the submission uncaught be
    anything but resource exhaustion: an exception object of another class,
    or a value that is no exception object ([throw 42;]). Then the
    entry-redirect harness raises SIGUSR2, and so does the hook harness
    when its hook is still installed as the failure escapes, whatever the
    disposition of the signal; the process then ends, killed by SIGUSR2
    when the signal meets its default action. *)
Theorem other_failure_raises_SIGUSR2 :
  forall (body : Proc Z) (depth : nat) (e : thrown) (w0 : world),
    is_resource_exhaustion e = false ->
    (forall w1,
        body (desynchronized w0) = Throwing e w1 ->
        exists t w2,
          entry_redirect_process (nested depth body) w0 = Halt t w2 /\
          trace w2 = trace w1 ++ [Raised SIGUSR2; Terminated t] /\
          (disposition w1 SIGUSR2 = SIG_DFL -> t = Killed SIGUSR2))
    /\
    (forall w1,
        body (hook_installed w0) = Throwing e w1 ->
        terminate_slot w1 = stub_on_terminate ->
        exists t w2,
          terminate_hook_process (nested depth body) w0 = Halt t w2 /\
          trace w2 = trace w1 ++ [Raised SIGUSR2; Terminated t] /\
          (disposition w1 SIGUSR2 = SIG_DFL -> t = Killed SIGUSR2)).
Proof.
  intros body depth e w0 He.
  assert (Hs : signal_for (classify e) = SIGUSR2)
    by (rewrite signal_for_classify, He; reflexivity).
  split; intros w1 Hbody.
  - destruct (entry_process_on_exception (nested depth body) w0 w1 e)
      as (w2 & Hrun & Htr).
    { rewrite nested_transparent. exact Hbody. }
    rewrite Hs in Hrun, Htr.
    exists (status_after_raise w1 SIGUSR2), w2. repeat split; trivial.
    intros Hd. unfold status_after_raise. rewrite Hd. reflexivity.
  - intros Hslot.
    destruct (hook_process_on_exception (nested depth body) w0 w1 e)
      as (w2 & Hrun & Htr); trivial.
    { rewrite nested_transparent. exact Hbody. }
    rewrite Hs in Hrun, Htr.
    exists (status_after_raise w1 SIGUSR2), w2. repeat split; trivial.
    intros Hd. unfold status_after_raise. rewrite Hd. reflexivity.
Qed.

Lemma other_failure_raises_SIGUSR2_witness :
  (exists w2,
      entry_redirect_process (nested 3 throws_42) fresh_world
        = Halt (Killed SIGUSR2) w2 /\
      trace w2 = [Raised SIGUSR2; Terminated (Killed SIGUSR2)])
  /\
  (exists w2,
      terminate_hook_process (nested 3 throws_42) fresh_world
        = Halt (Killed SIGUSR2) w2 /\
      trace w2 = [Raised SIGUSR2; Terminated (Killed SIGUSR2)]).
Proof.
  destruct (other_failure_raises_SIGUSR2
              throws_42 3 (ThrowInt 42) fresh_world eq_refl)
    as [Hentry Hhook].
  split.
  - destruct (Hentry (desynchronized fresh_world) eq_refl)
      as (t & w2 & Hrun & Htr & Hdfl).
    exists w2. rewrite <- (Hdfl eq_refl). split; assumption.
  - destruct (Hhook (hook_installed fresh_world) eq_refl eq_refl)
      as (t & w2 & Hrun & Htr & Hdfl).
    exists w2. rewrite <- (Hdfl eq_refl). split; assumption.
Defined.

(** C3. When the renamed entry point [main__2] returns normally with value
    [v], [main] returns [v], and the process exits with [v] as the status
    handed to [exit]. *)
Theorem main_returns_submission_value :
  forall (main__2 : Proc Z) (v : Z) (w0 w1 : world),
    main__2 (desynchronized w0) = Normal v w1 ->
    PRO2.main main__2 w0 = Normal v w1 /\
    entry_redirect_process main__2 w0 =
      Halt (Exited v) (log (Terminated (Exited v)) w1).
Proof.
  intros main__2 v w0 w1 H. split.
  - apply main_returns. exact H.
  - rewrite entry_process_unfold, (main_returns _ _ _ _ H). reflexivity.
Qed.

Lemma main_returns_submission_value_witness :
  PRO2.main returns_7 fresh_world = Normal 7%Z (desynchronized fresh_world) /\
  entry_redirect_process returns_7 fresh_world =
    Halt (Exited 7) (log (Terminated (Exited 7)) (desynchronized fresh_world)).
Proof.
  exact (main_returns_submission_value
           returns_7 7%Z fresh_world (desynchronized fresh_world) eq_refl).
Defined.

(* ------------------------------------------------------------------ *)
(** ** After the signal *)

(** C4, as the specification states it, fails: with SIGUSR1 ignored and a
    submission that throws [std::bad_alloc], [raise] comes back, the handler
    ends, and [main] returns 0 to its caller after having raised the
    signal. *)
Lemma main_returns_after_ignored_signal :
  exists w',
    PRO2.main throws_bad_alloc (ignoring SIGUSR1 fresh_world) = Normal 0%Z w' /\
    trace w' = [Raised SIGUSR1].
Proof. eexists. split; reflexivity. Qed.

(** C4, amended. [main] has no statement after [raise]. When a failure [e]
    leaves [main__2] and the [raise] of the signal chosen for [e] returns
    (the signal is ignored, caught by a handler that returns, or blocked),
    [main] reaches its end, returns 0 to its caller, and the process exits
    with status 0. [main] does not come back only when [raise] itself does
    not: the signal met its default action and killed the process. *)
Theorem main_after_raise :
  forall (main__2 : Proc Z) (e : thrown) (w0 w1 : world),
    main__2 (desynchronized w0) = Throwing e w1 ->
    (forall r w',
        raise (signal_for (classify e)) (set_current_exc (Some e) w1)
          = Normal r w' ->
        PRO2.main main__2 w0 =
          Normal 0%Z (set_current_exc (current_exc w1) w') /\
        entry_redirect_process main__2 w0 =
          Halt (Exited 0)
               (log (Terminated (Exited 0))
                    (set_current_exc (current_exc w1) w')))
    /\
    (forall t w',
        raise (signal_for (classify e)) (set_current_exc (Some e) w1)
          = Halt t w' ->
        PRO2.main main__2 w0 = Halt t w' /\
        t = Killed (signal_for (classify e)) /\
        disposition w1 (signal_for (classify e)) = SIG_DFL)
    /\
    (disposition w1 (signal_for (classify e)) <> SIG_DFL ->
     exists w',
       raise (signal_for (classify e)) (set_current_exc (Some e) w1)
         = Normal 0%Z w').
Proof.
  intros main__2 e w0 w1 H.
  rewrite entry_process_unfold, (main_catches_by_raise _ _ _ _ H).
  split; [|split].
  - intros r w' Hr. rewrite Hr. split; reflexivity.
  - intros t w' Hr. rewrite Hr. split; [reflexivity|].
    revert Hr. unfold raise. cbn [disposition set_current_exc].
    destruct (disposition w1 (signal_for (classify e)));
      intros Hr; try discriminate.
    injection Hr as <- _. split; reflexivity.
  - intros Hd. unfold raise. cbn [disposition set_current_exc].
    destruct (disposition w1 (signal_for (classify e)));
      [contradiction | | |]; eexists; reflexivity.
Qed.

Lemma main_after_raise_witness :
  (exists w',
      PRO2.main blocks_SIGUSR1_then_throws fresh_world = Normal 0%Z w' /\
      entry_redirect_process blocks_SIGUSR1_then_throws fresh_world
        = Halt (Exited 0) (log (Terminated (Exited 0)) w'))
  /\
  (exists w',
      PRO2.main throws_runtime_error fresh_world = Halt (Killed SIGUSR2) w').
Proof.
  split.
  - eexists.
    apply (main_after_raise blocks_SIGUSR1_then_throws
             (ThrowObject std_bad_alloc) fresh_world
             (set_disposition SIGUSR1 SIG_MASKED (desynchronized fresh_world))
             eq_refl)
      with (r := 0%Z).
    reflexivity.
  - eexists.
    apply (main_after_raise throws_runtime_error
             (ThrowObject std_runtime_error) fresh_world
             (desynchronized fresh_world) eq_refl).
    reflexivity.
Defined.

(** C5. The hook never comes back to its caller: in every world it ends the
    process, killed by the signal it raised or by [_Exit(0)]. *)
Theorem hook_never_returns :
  forall w : world,
    exists t w',
      Stub.jutge__stub__on_terminate w = Halt t w' /\
      (t = Killed SIGUSR1 \/ t = Killed SIGUSR2 \/ t = Exited 0).
Proof.
  intros w. destruct (current_exc w) as [e|] eqn:Hexc.
  - rewrite (hook_classifies w e Hexc). cbv zeta.
    rewrite signal_for_classify.
    destruct (is_resource_exhaustion e);
      match goal with
      | |- context [disposition w ?s] => destruct (disposition w s)
      end; do 2 eexists; (split; [reflexivity|]); auto.
  - rewrite (hook_quiet w Hexc). do 2 eexists. split; [reflexivity|]. auto.
Qed.

(** C6. Invoked with no exception propagating, the hook raises no signal
    and ends the process with exit status 0. *)
Theorem hook_without_exception_exits_0 :
  forall w : world,
    current_exc w = None ->
    Stub.jutge__stub__on_terminate w =
      Halt (Exited 0) (log (Terminated (Exited 0)) w) /\
    signals_raised (new_events w (Stub.jutge__stub__on_terminate w)) = [].
Proof.
  intros w H. rewrite (hook_quiet w H). split; [reflexivity|].
  rewrite (new_events_app w _ [Terminated (Exited 0)]); reflexivity.
Qed.

Lemma hook_without_exception_exits_0_witness :
  Stub.jutge__stub__on_terminate (hook_installed fresh_world) =
    Halt (Exited 0)
         (log (Terminated (Exited 0)) (hook_installed fresh_world)) /\
  signals_raised
    (new_events (hook_installed fresh_world)
       (Stub.jutge__stub__on_terminate (hook_installed fresh_world))) = [].
Proof.
  exact (hook_without_exception_exits_0 (hook_installed fresh_world) eq_refl).
Defined.

(** C10. Invoked for a failure [e] whose signal does not have the default
    action, the hook raises the signal, [raise] comes back, and the hook
    ends the process by [_Exit(0)]: exit status 0, the status of the quiet
    exit taken when no exception is propagating. *)
Theorem hook_exits_0_when_signal_not_fatal :
  forall (w : world) (e : thrown),
    current_exc w = Some e ->
    disposition w (signal_for (classify e)) <> SIG_DFL ->
    (exists w',
        Stub.jutge__stub__on_terminate w = Halt (Exited 0) w' /\
        trace w' =
          trace w ++ [Raised (signal_for (classify e)); Terminated (Exited 0)])
    /\
    (exists w',
        Stub.jutge__stub__on_terminate (set_current_exc None w)
          = Halt (Exited 0) w').
Proof.
  intros w e Hexc Hd. split.
  - rewrite (hook_classifies w e Hexc). cbv zeta.
    destruct (disposition w (signal_for (classify e)));
      [contradiction | | |]; eexists; (split; [reflexivity|]);
      cbn [trace log set_current_exc signalled];
      rewrite <- app_assoc; reflexivity.
  - rewrite (hook_quiet (set_current_exc None w) eq_refl).
    eexists. reflexivity.
Qed.

Lemma hook_exits_0_when_signal_not_fatal_witness :
  (exists w',
      Stub.jutge__stub__on_terminate
        (set_current_exc (Some (ThrowObject std_bad_alloc))
           (ignoring SIGUSR1 fresh_world)) = Halt (Exited 0) w' /\
      trace w' = [Raised SIGUSR1; Terminated (Exited 0)])
  /\
  (exists w',
      Stub.jutge__stub__on_terminate
        (set_current_exc None
           (set_current_exc (Some (ThrowObject std_bad_alloc))
              (ignoring SIGUSR1 fresh_world))) = Halt (Exited 0) w').
Proof.
  apply (hook_exits_0_when_signal_not_fatal
           (set_current_exc (Some (ThrowObject std_bad_alloc))
              (ignoring SIGUSR1 fresh_world))
           (ThrowObject std_bad_alloc) eq_refl).
  discriminate.
Defined.

(* ------------------------------------------------------------------ *)
(** ** One termination per execution *)









(* ------------------------------------------------------------------ *)
(** ** Both harnesses implement the classification policy *)

(** C8. For every failure [e], thrown at any call depth and in any world,
    the catch cascade of [main] and the rethrow-and-catch cascade of the
    hook raise the same single signal, the one the policy assigns to [e]:
    SIGUSR1 for resource exhaustion, SIGUSR2 for anything else. *)
Theorem harnesses_select_same_signal :
  forall (e : thrown) (d d' : nat) (w w' : world),
    signals_raised
      (new_events w (entry_redirect_process (nested d (throw_ e)) w))
      = [signal_for (classify e)] /\
    signals_raised
      (new_events w' (terminate_hook_process (nested d' (throw_ e)) w'))
      = [signal_for (classify e)] /\
    signals_raised
      (new_events w'
         (Stub.jutge__stub__on_terminate (set_current_exc (Some e) w')))
      = [signal_for (classify e)] /\
    signal_for (classify e) =
      (if is_resource_exhaustion e then SIGUSR1 else SIGUSR2).
Proof.
  intros e d d' w w'. repeat split.
  - destruct (entry_process_on_exception
                (nested d (throw_ e)) w (desynchronized w) e)
      as (w2 & Hrun & Htr).
    { rewrite nested_transparent. reflexivity. }
    rewrite Hrun. erewrite new_events_app; [|exact Htr]. reflexivity.
  - destruct (hook_process_on_exception
                (nested d' (throw_ e)) w' (hook_installed w') e)
      as (w2 & Hrun & Htr).
    { rewrite nested_transparent. reflexivity. }
    { reflexivity. }
    rewrite Hrun. erewrite new_events_app; [|exact Htr]. reflexivity.
  - rewrite (hook_classifies (set_current_exc (Some e) w') e eq_refl).
    cbv zeta. cbn [disposition set_current_exc].
    destruct (disposition w' (signal_for (classify e)));
      (erewrite new_events_app;
       [| cbn [world_of trace log set_current_exc signalled];
          rewrite <- app_assoc; reflexivity]);
      reflexivity.
  - apply signal_for_classify.
Qed.

(* ------------------------------------------------------------------ *)
(** ** The stream settings *)

Lemma repeat_desynchronized (n : nat) (w : world) :
  repeat_proc n io_desynchronization (desynchronized w)
  = Normal tt (desynchronized w).
Proof.
  induction n as [|k IH]; simpl.
  - reflexivity.
  - unfold bind at 1. rewrite io_desynchronization_world. exact IH.
Qed.

(** C9. Applying the stream settings [n >= 1] times in a row leaves the
    process in the state one application leaves it in. *)
Theorem io_desynchronization_idempotent :
  forall (n : nat) (w : world),
    (1 <= n)%nat ->
    repeat_proc n io_desynchronization w = io_desynchronization w.
Proof.
  intros n w Hn. destruct n as [|k]; [lia|].
  simpl. unfold bind at 1. rewrite io_desynchronization_world.
  apply repeat_desynchronized.
Qed.

Lemma io_desynchronization_idempotent_witness :
  repeat_proc 3 io_desynchronization fresh_world
  = io_desynchronization fresh_world.
Proof.
  apply (io_desynchronization_idempotent 3 fresh_world). lia.
Defined.

(* ------------------------------------------------------------------ *)
(** ** The scenarios of the specification, run on the model *)

(** Scenario A: the entry point throws [std::bad_alloc]. *)
Example scenario_A_entry_redirect :
  entry_redirect_process throws_bad_alloc fresh_world =
  Halt (Killed SIGUSR1)
       (mkWorld false None default_terminate
                (Some (ThrowObject std_bad_alloc)) (fun _ => SIG_DFL)
                [Raised SIGUSR1; Terminated (Killed SIGUSR1)]).
Proof. reflexivity. Qed.

Example scenario_A_terminate_hook :
  terminate_hook_process throws_bad_alloc fresh_world =
  Halt (Killed SIGUSR1)
       (mkWorld false None stub_on_terminate
                (Some (ThrowObject std_bad_alloc)) (fun _ => SIG_DFL)
                [Raised SIGUSR1; Terminated (Killed SIGUSR1)]).
Proof. reflexivity. Qed.

(** A class derived from [std::bad_alloc] is caught by the first handler. *)
Example bad_array_new_length_is_resource_exhaustion :
  classify (ThrowObject std_bad_array_new_length) = ResourceExhaustion /\
  terminations
    (trace (world_of
       (entry_redirect_process
          (throw_ (ThrowObject std_bad_array_new_length)) fresh_world)))
  = [Killed SIGUSR1].
Proof. split; reflexivity. Qed.

(** Scenario B: the entry point throws [std::runtime_error]. *)
Example scenario_B :
  terminations
    (trace (world_of (entry_redirect_process throws_runtime_error fresh_world)))
    = [Killed SIGUSR2] /\
  terminations
    (trace (world_of (terminate_hook_process throws_runtime_error fresh_world)))
    = [Killed SIGUSR2].
Proof. split; reflexivity. Qed.

Example out_of_range_is_other_failure :
  classify (ThrowObject std_out_of_range) = Other /\
  handles (catch_ref std_exception) (ThrowObject std_out_of_range) = true /\
  signals_raised
    (trace (world_of
       (terminate_hook_process
          (throw_ (ThrowObject std_out_of_range)) fresh_world)))
  = [SIGUSR2].
Proof. repeat split; reflexivity. Qed.

(** Scenario C: [throw 42;] three calls deep, under the hook harness. *)
Example scenario_C :
  terminate_hook_process (nested 3 throws_42) fresh_world =
  Halt (Killed SIGUSR2)
       (mkWorld false None stub_on_terminate (Some (ThrowInt 42))
                (fun _ => SIG_DFL)
                [Raised SIGUSR2; Terminated (Killed SIGUSR2)]).
Proof. reflexivity. Qed.

(** Scenario D: the entry point returns 7. *)
Example scenario_D :
  entry_redirect_process returns_7 fresh_world =
  Halt (Exited 7)
       (mkWorld false None default_terminate None (fun _ => SIG_DFL)
                [Terminated (Exited 7)]).
Proof. reflexivity. Qed.

(** A class that does not derive from [std::exception] reaches the last
    handler, and is reported like any other failure. *)
Example foreign_class_reaches_catch_all :
  handles (catch_ref std_exception) (ThrowObject (Class "MyError" [])) = false
  /\
  signals_raised
    (trace (world_of
       (entry_redirect_process
          (throw_ (ThrowObject (Class "MyError" []))) fresh_world)))
  = [SIGUSR2].
Proof. split; reflexivity. Qed.

(** With SIGUSR1 ignored both harnesses end with exit status 0 after an
    escaping [std::bad_alloc]: [main] by returning 0, the hook by
    [_Exit(0)]. *)
Example ignored_signal_exit_status :
  terminations
    (trace (world_of
       (entry_redirect_process throws_bad_alloc (ignoring SIGUSR1 fresh_world))))
    = [Exited 0] /\
  terminations
    (trace (world_of
       (terminate_hook_process throws_bad_alloc (ignoring SIGUSR1 fresh_world))))
    = [Exited 0].
Proof. split; reflexivity. Qed.

(* ------------------------------------------------------------------ *)
(** ** Further properties of the two harnesses *)

(** *** Each process, by what the submission does *)

Lemma entry_process_cases (sub : Proc Z) (w0 : world) :
  match sub (desynchronized w0) with
  | Normal v w1 =>
      PRO2.main sub w0 = Normal v w1 /\
      entry_redirect_process sub w0 =
        Halt (Exited v) (log (Terminated (Exited v)) w1)
  | Throwing e w1 =>
      exists w2,
        entry_redirect_process sub w0 =
          Halt (status_after_raise w1 (signal_for (classify e))) w2 /\
        trace w2 =
          trace w1 ++
          [Raised (signal_for (classify e));
           Terminated (status_after_raise w1 (signal_for (classify e)))]
  | Halt t w1 =>
      PRO2.main sub w0 = Halt t w1 /\
      entry_redirect_process sub w0 = Halt t w1
  end.
Proof.
  destruct (sub (desynchronized w0)) as [v w1|e w1|t w1] eqn:Hsub.
  - rewrite entry_process_unfold, (main_returns _ _ _ _ Hsub).
    split; reflexivity.
  - apply entry_process_on_exception. exact Hsub.
  - rewrite entry_process_unfold, (main_halts _ _ _ _ Hsub).
    split; reflexivity.
Qed.

Lemma hook_process_on_default_handler
      (sub : Proc Z) (w0 w1 : world) (e : thrown) :
  sub (hook_installed w0) = Throwing e w1 ->
  terminate_slot w1 = default_terminate ->
  terminate_hook_process sub w0 =
    Halt (Killed SIGABRT)
         (log (Terminated (Killed SIGABRT)) (set_current_exc (Some e) w1)).
Proof.
  intros Hsub Hslot. rewrite hook_process_unfold, Hsub. unfold std_terminate.
  cbn [terminate_slot set_current_exc]. rewrite Hslot. reflexivity.
Qed.

Lemma status_after_raise_killed (w : world) (s' s : signal) :
  status_after_raise w s' = Killed s ->
  s' = s /\ disposition w s = SIG_DFL.
Proof.
  unfold status_after_raise.
  destruct (disposition w s') eqn:Hd; intros H; try discriminate.
  injection H as <-. split; [reflexivity | exact Hd].
Qed.

Lemma status_after_raise_exited (w : world) (s : signal) (c : Z) :
  status_after_raise w s = Exited c -> c = 0%Z.
Proof.
  unfold status_after_raise.
  destruct (disposition w s); intros H; try discriminate;
    injection H as <-; reflexivity.
Qed.

Lemma classified_signal (e : thrown) (s : signal) :
  signal_for (classify e) = s ->
  is_resource_exhaustion e = signal_eqb s SIGUSR1.
Proof.
  rewrite signal_for_classify.
  destruct (is_resource_exhaustion e); intros <-; reflexivity.
Qed.

(** *** Class derivation *)

(** Induction over a class and, through the list, over its base classes. *)
Section ClassInduction.

Variable P : class -> Prop.
Hypothesis step :
  forall n bs, Forall (fun ab => P (snd ab)) bs -> P (Class n bs).

Fixpoint class_induction (c : class) : P c :=
  match c with
  | Class n bs =>
      step n bs
        ((fix over_bases (xs : list (access * class))
            : Forall (fun ab => P (snd ab)) xs :=
            match xs with
            | [] => Forall_nil _
            | (a, b) :: xs' =>
                Forall_cons (a, b) (class_induction b) (over_bases xs')
            end) bs)
  end.

End ClassInduction.

(** A class on a single chain of public derivations: at most one base
    class, publicly, and so on upwards. Every class of the standard
    library's exception hierarchy named above is of this kind. *)
Fixpoint single_chain (c : class) : bool :=
  match c with
  | Class _ [] => true
  | Class _ [(Public, b)] => single_chain b
  | Class _ _ => false
  end.

Fixpoint class_size (c : class) : nat :=
  match c with
  | Class _ bs =>
      S ((fix over_bases (xs : list (access * class)) : nat :=
            match xs with
            | [] => O
            | (_, b) :: xs' => (class_size b + over_bases xs')%nat
            end) bs)
  end.

Lemma access_eqb_eq (a b : access) : access_eqb a b = true -> a = b.
Proof. destruct a, b; simpl; congruence. Qed.

Lemma class_eqb_eq (c d : class) : class_eqb c d = true -> c = d.
Proof.
  revert d. induction c as [n bs IH] using class_induction.
  intros [m ds]. cbn [class_eqb]. intros H.
  apply andb_true_iff in H as [Hn Hbs].
  apply String.eqb_eq in Hn. subst m. f_equal.
  revert ds Hbs. induction IH as [|[a x] xs Hx _ IHxs]; intros [|[b y] ys] Hbs;
    try discriminate.
  - reflexivity.
  - apply andb_true_iff in Hbs as [Hhead Htail].
    apply andb_true_iff in Hhead as [Ha Hxy].
    apply access_eqb_eq in Ha. cbn [snd] in Hx. apply Hx in Hxy.
    apply IHxs in Htail. subst. reflexivity.
Qed.

(** The shape of a single chain. *)
Lemma single_chain_cases (n : string) (bs : list (access * class)) :
  single_chain (Class n bs) = true ->
  bs = [] \/ exists b, bs = [(Public, b)] /\ single_chain b = true.
Proof.
  destruct bs as [|[[|] b] [|x xs]]; cbn [single_chain]; intros H;
    try discriminate.
  - left. reflexivity.
  - right. exists b. split; [reflexivity | exact H].
Qed.

(** A class is not among its own base classes, nor among those of a
    smaller class. *)
Lemma chain_has_no_larger_base (T c : class) :
  single_chain c = true ->
  (class_size c <= class_size T)%nat ->
  subobjects T c = O.
Proof.
  induction c as [n bs IH] using class_induction. intros Hc Hsize.
  destruct (single_chain_cases n bs Hc) as [->|(b & -> & Hb)].
  - reflexivity.
  - apply Forall_inv in IH. cbn [snd] in IH.
    cbn [class_size] in Hsize. cbn [subobjects].
    destruct (class_eqb b T) eqn:Heq.
    + apply class_eqb_eq in Heq. subst b. lia.
    + rewrite (IH Hb) by lia. reflexivity.
Qed.

Lemma chain_base_is_unique (T c : class) :
  single_chain c = true ->
  public_path T c = true ->
  subobjects T c = 1%nat.
Proof.
  induction c as [n bs IH] using class_induction. intros Hc Hpath.
  destruct (single_chain_cases n bs Hc) as [->|(b & -> & Hb)].
  - discriminate.
  - apply Forall_inv in IH. cbn [snd] in IH.
    cbn [public_path access_eqb] in Hpath. cbn [subobjects].
    rewrite orb_false_r, andb_true_l in Hpath.
    destruct (class_eqb b T) eqn:Heq.
    + apply class_eqb_eq in Heq. subst b.
      rewrite (chain_has_no_larger_base T T Hb) by lia. reflexivity.
    + cbn [orb] in Hpath. rewrite (IH Hb Hpath). reflexivity.
Qed.

Lemma chain_public_path_trans (T d c : class) :
  single_chain c = true ->
  public_path d c = true ->
  public_path T d = true ->
  public_path T c = true.
Proof.
  induction c as [n bs IH] using class_induction. intros Hc Hcd HdT.
  destruct (single_chain_cases n bs Hc) as [->|(b & -> & Hb)].
  - discriminate.
  - apply Forall_inv in IH. cbn [snd] in IH.
    cbn [public_path access_eqb] in Hcd |- *.
    rewrite orb_false_r, andb_true_l in Hcd |- *.
    destruct (class_eqb b d) eqn:Heq.
    + apply class_eqb_eq in Heq. subst b. rewrite HdT. apply orb_true_r.
    + cbn [orb] in Hcd. rewrite (IH Hb Hcd HdT). apply orb_true_r.
Qed.

(** On a single chain, what [bad_alloc&] binds [exception&] binds too. *)
Lemma chain_bad_alloc_is_exception (c : class) :
  single_chain c = true ->
  derives_from c std_bad_alloc = true ->
  derives_from c std_exception = true.
Proof.
  intros Hc H. unfold derives_from in H |- *.
  apply orb_true_iff in H as [Heq|H].
  - apply class_eqb_eq in Heq. subst c. reflexivity.
  - apply andb_true_iff in H as [_ Hpath].
    assert (Hexc : public_path std_exception c = true)
      by (apply (chain_public_path_trans _ std_bad_alloc); trivial).
    rewrite (chain_base_is_unique _ _ Hc Hexc), Hexc. apply orb_true_r.
Qed.

(** A submission that calls [exit(3)]. *)
Definition exits_3 : Proc Z := exit 3%Z.

(** X1. No exception ever leaves [main], whatever [main__2] does: the
    result of [main] is never an exception being unwound. [main] either
    returns a value, and the process then exits with it, or the process
    has ended inside [main] (killed in [raise], or ended by the submission
    itself) and ends that way. *)
Theorem main_lets_no_exception_escape :
  forall (main__2 : Proc Z) (w0 : world),
    (forall e w, PRO2.main main__2 w0 <> Throwing e w)
    /\
    ((exists v w,
         PRO2.main main__2 w0 = Normal v w /\
         entry_redirect_process main__2 w0 =
           Halt (Exited v) (log (Terminated (Exited v)) w))
     \/
     (exists t w,
         PRO2.main main__2 w0 = Halt t w /\
         entry_redirect_process main__2 w0 = Halt t w)).
Proof.
  intros main__2 w0. rewrite entry_process_unfold.
  destruct (main__2 (desynchronized w0)) as [v w1|e w1|t w1] eqn:Hsub.
  - rewrite (main_returns _ _ _ _ Hsub). split; [discriminate|].
    left. do 2 eexists. split; reflexivity.
  - rewrite (main_catches _ _ _ _ Hsub). cbv zeta.
    destruct (disposition w1 (signal_for (classify e)));
      (split; [discriminate|]);
      [right | left | left | left]; do 2 eexists; split; reflexivity.
  - rewrite (main_halts _ _ _ _ Hsub). split; [discriminate|].
    right. do 2 eexists. split; reflexivity.
Qed.

(** X2. A process found killed by SIGUSR1 or SIGUSR2 got there in one of
    two ways only: the submission ended the process that way itself, or a
    failure left the submission uncaught, the signal was at its default
    action, and the failure was resource exhaustion exactly when the
    signal is SIGUSR1 (under the hook harness, with the hook still
    installed). *)
Theorem kill_signal_tells_failure_class :
  forall (sub : Proc Z) (w0 wf wf' : world) (s : signal),
    s <> SIGABRT ->
    (entry_redirect_process sub w0 = Halt (Killed s) wf ->
     (exists w1, sub (desynchronized w0) = Halt (Killed s) w1) \/
     (exists e w1,
         sub (desynchronized w0) = Throwing e w1 /\
         is_resource_exhaustion e = signal_eqb s SIGUSR1 /\
         disposition w1 s = SIG_DFL))
    /\
    (terminate_hook_process sub w0 = Halt (Killed s) wf' ->
     (exists w1, sub (hook_installed w0) = Halt (Killed s) w1) \/
     (exists e w1,
         sub (hook_installed w0) = Throwing e w1 /\
         terminate_slot w1 = stub_on_terminate /\
         is_resource_exhaustion e = signal_eqb s SIGUSR1 /\
         disposition w1 s = SIG_DFL)).
Proof.
  intros sub w0 wf wf' s Hs. split; intros Hrun.
  - pose proof (entry_process_cases sub w0) as Hc.
    destruct (sub (desynchronized w0)) as [v w1|e w1|t w1].
    + destruct Hc as [_ Hc]. rewrite Hc in Hrun. discriminate.
    + destruct Hc as (w2 & Hc & _). rewrite Hc in Hrun.
      injection Hrun as Hst _.
      apply status_after_raise_killed in Hst as [Hsig Hd].
      right. exists e, w1. repeat split; trivial.
      apply classified_signal. exact Hsig.
    + destruct Hc as [_ Hc]. rewrite Hc in Hrun.
      injection Hrun as -> _. left. exists w1. reflexivity.
  - destruct (sub (hook_installed w0)) as [v w1|e w1|t w1] eqn:Hsub.
    + rewrite hook_process_unfold, Hsub in Hrun. discriminate.
    + destruct (terminate_slot w1) eqn:Hslot.
      * rewrite (hook_process_on_default_handler _ _ _ _ Hsub Hslot) in Hrun.
        injection Hrun as Hsig _. congruence.
      * destruct (hook_process_on_exception _ _ _ _ Hsub Hslot)
          as (w2 & Hc & _).
        rewrite Hc in Hrun. injection Hrun as Hst _.
        apply status_after_raise_killed in Hst as [Hsig Hd].
        right. exists e, w1. repeat split; trivial.
        apply classified_signal. exact Hsig.
    + rewrite hook_process_unfold, Hsub in Hrun.
      injection Hrun as -> _. left. exists w1. reflexivity.
Qed.

Lemma kill_signal_tells_failure_class_witness :
  ((exists w1,
       throws_bad_alloc (desynchronized fresh_world) = Halt (Killed SIGUSR1) w1)
   \/
   (exists e w1,
       throws_bad_alloc (desynchronized fresh_world) = Throwing e w1 /\
       is_resource_exhaustion e = true /\
       disposition w1 SIGUSR1 = SIG_DFL))
  /\
  ((exists w1,
       throws_bad_alloc (hook_installed fresh_world) = Halt (Killed SIGUSR1) w1)
   \/
   (exists e w1,
       throws_bad_alloc (hook_installed fresh_world) = Throwing e w1 /\
       terminate_slot w1 = stub_on_terminate /\
       is_resource_exhaustion e = true /\
       disposition w1 SIGUSR1 = SIG_DFL)).
Proof.
  destruct (kill_signal_tells_failure_class
              throws_bad_alloc fresh_world
              (world_of (entry_redirect_process throws_bad_alloc fresh_world))
              (world_of (terminate_hook_process throws_bad_alloc fresh_world))
              SIGUSR1)
    as [Hentry Hhook].
  - discriminate.
  - split.
    + exact (Hentry eq_refl).
    + exact (Hhook eq_refl).
Defined.

(** X3. A non-zero exit status is never made up by a harness: it is the
    value the submission's entry point returned, or the status the
    submission ended the process with itself. *)
Theorem nonzero_exit_status_is_the_submission_s :
  forall (sub : Proc Z) (w0 wf wf' : world) (c : Z),
    c <> 0%Z ->
    (entry_redirect_process sub w0 = Halt (Exited c) wf ->
     (exists w1, sub (desynchronized w0) = Normal c w1) \/
     (exists w1, sub (desynchronized w0) = Halt (Exited c) w1))
    /\
    (terminate_hook_process sub w0 = Halt (Exited c) wf' ->
     (exists w1, sub (hook_installed w0) = Normal c w1) \/
     (exists w1, sub (hook_installed w0) = Halt (Exited c) w1)).
Proof.
  intros sub w0 wf wf' c Hc. split; intros Hrun.
  - pose proof (entry_process_cases sub w0) as Hcases.
    destruct (sub (desynchronized w0)) as [v w1|e w1|t w1].
    + destruct Hcases as [_ Hp]. rewrite Hp in Hrun.
      injection Hrun as -> _. left. exists w1. reflexivity.
    + destruct Hcases as (w2 & Hp & _). rewrite Hp in Hrun.
      injection Hrun as Hst _.
      apply status_after_raise_exited in Hst. contradiction.
    + destruct Hcases as [_ Hp]. rewrite Hp in Hrun.
      injection Hrun as -> _. right. exists w1. reflexivity.
  - destruct (sub (hook_installed w0)) as [v w1|e w1|t w1] eqn:Hsub.
    + rewrite hook_process_unfold, Hsub in Hrun.
      injection Hrun as -> _. left. exists w1. reflexivity.
    + destruct (terminate_slot w1) eqn:Hslot.
      * rewrite (hook_process_on_default_handler _ _ _ _ Hsub Hslot) in Hrun.
        discriminate.
      * destruct (hook_process_on_exception _ _ _ _ Hsub Hslot)
          as (w2 & Hp & _).
        rewrite Hp in Hrun. injection Hrun as Hst _.
        apply status_after_raise_exited in Hst. contradiction.
    + rewrite hook_process_unfold, Hsub in Hrun.
      injection Hrun as -> _. right. exists w1. reflexivity.
Qed.

Lemma nonzero_exit_status_is_the_submission_s_witness :
  ((exists w1, returns_7 (desynchronized fresh_world) = Normal 7%Z w1) \/
   (exists w1, returns_7 (desynchronized fresh_world) = Halt (Exited 7) w1))
  /\
  ((exists w1, returns_7 (hook_installed fresh_world) = Normal 7%Z w1) \/
   (exists w1, returns_7 (hook_installed fresh_world) = Halt (Exited 7) w1)).
Proof.
  destruct (nonzero_exit_status_is_the_submission_s
              returns_7 fresh_world
              (world_of (entry_redirect_process returns_7 fresh_world))
              (world_of (terminate_hook_process returns_7 fresh_world))
              7%Z)
    as [Hentry Hhook].
  - discriminate.
  - split.
    + exact (Hentry eq_refl).
    + exact (Hhook eq_refl).
Defined.

(** X4. Under the hook harness a submission whose entry point returns [v]
    ends with exit status [v] and no signal raised: the value 999 of the
    initialiser is not used, and the installed hook stays idle. *)
Theorem hook_harness_returns_submission_value :
  forall (sub : Proc Z) (v : Z) (w0 w1 : world),
    sub (hook_installed w0) = Normal v w1 ->
    terminate_hook_process sub w0 =
      Halt (Exited v) (log (Terminated (Exited v)) w1) /\
    signals_raised (new_events w1 (terminate_hook_process sub w0)) = [].
Proof.
  intros sub v w0 w1 Hsub. rewrite hook_process_unfold, Hsub. split.
  - reflexivity.
  - rewrite (new_events_app w1 _ [Terminated (Exited v)]); reflexivity.
Qed.

Lemma hook_harness_returns_submission_value_witness :
  terminate_hook_process returns_7 fresh_world =
    Halt (Exited 7) (log (Terminated (Exited 7)) (hook_installed fresh_world))
  /\
  signals_raised
    (new_events (hook_installed fresh_world)
       (terminate_hook_process returns_7 fresh_world)) = [].
Proof.
  exact (hook_harness_returns_submission_value
           returns_7 7%Z fresh_world (hook_installed fresh_world) eq_refl).
Defined.

(** When the submission ends the process itself ([exit], [abort], a
    fatal signal), neither harness adds anything: no handler of [main]
    runs, the hook is not called, and the process ends as the submission
    ended it. *)
Theorem submission_ending_the_process_is_final :
  forall (sub : Proc Z) (w0 : world) (t : termination),
    (forall w1,
        sub (desynchronized w0) = Halt t w1 ->
        entry_redirect_process sub w0 = Halt t w1)
    /\
    (forall w1,
        sub (hook_installed w0) = Halt t w1 ->
        terminate_hook_process sub w0 = Halt t w1).
Proof.
  intros sub w0 t. split; intros w1 Hsub.
  - rewrite entry_process_unfold, (main_halts _ _ _ _ Hsub). reflexivity.
  - rewrite hook_process_unfold, Hsub. reflexivity.
Qed.

Lemma submission_ending_the_process_is_final_witness :
  entry_redirect_process exits_3 fresh_world =
    Halt (Exited 3)
         (log (Terminated (Exited 3)) (desynchronized fresh_world))
  /\
  terminate_hook_process exits_3 fresh_world =
    Halt (Exited 3)
         (log (Terminated (Exited 3)) (hook_installed fresh_world)).
Proof.
  destruct (submission_ending_the_process_is_final
              exits_3 fresh_world (Exited 3)) as [Hentry Hhook].
  split.
  - exact (Hentry _ eq_refl).
  - exact (Hhook _ eq_refl).
Defined.

(** X5. The hook harness classifies only while its hook holds the single
    terminate slot. If the submission has put the default handler back
    before the failure escapes, no signal is raised and the process ends by
    SIGABRT, whatever the failure is. *)
Theorem replaced_hook_ends_by_SIGABRT :
  forall (sub : Proc Z) (e : thrown) (w0 w1 : world),
    sub (hook_installed w0) = Throwing e w1 ->
    terminate_slot w1 = default_terminate ->
    exists w2,
      terminate_hook_process sub w0 = Halt (Killed SIGABRT) w2 /\
      trace w2 = trace w1 ++ [Terminated (Killed SIGABRT)].
Proof.
  intros sub e w0 w1 Hsub Hslot.
  rewrite (hook_process_on_default_handler _ _ _ _ Hsub Hslot).
  eexists. split; reflexivity.
Qed.

Lemma replaced_hook_ends_by_SIGABRT_witness :
  exists w2,
    terminate_hook_process restores_default_then_throws fresh_world
      = Halt (Killed SIGABRT) w2 /\
    trace w2 = [Terminated (Killed SIGABRT)].
Proof.
  exact (replaced_hook_ends_by_SIGABRT
           restores_default_then_throws (ThrowObject std_bad_alloc)
           fresh_world
           (set_terminate_slot default_terminate (hook_installed fresh_world))
           eq_refl eq_refl).
Defined.



(** X7. For a thrown object whose class lies on a single chain of public
    derivations, as the classes of the standard library's exception
    hierarchy do, whatever the first handler of the cascades takes the
    second would take as well, since [std::bad_alloc] derives from
    [std::exception]: it is the order of the clauses that sends it to
    SIGUSR1, in [main] and in the hook alike. *)
Theorem first_handler_shadows_second :
  forall c : class,
    single_chain c = true ->
    is_resource_exhaustion (ThrowObject c) = true ->
    handles (catch_ref std_bad_alloc) (ThrowObject c) = true /\
    handles (catch_ref std_exception) (ThrowObject c) = true /\
    find_handler
      [ (catch_ref std_bad_alloc, raise SIGUSR1 ;; fall_through);
        (catch_ref std_exception, raise SIGUSR2 ;; fall_through);
        (catch_all,               raise SIGUSR2 ;; fall_through) ]
      (ThrowObject c)
      = Some (raise SIGUSR1 ;; fall_through) /\
    find_handler
      [ (catch_ref std_bad_alloc, raise SIGUSR1 ;; ret tt);
        (catch_ref std_exception, raise SIGUSR2 ;; ret tt);
        (catch_all,               raise SIGUSR2 ;; ret tt) ]
      (ThrowObject c)
      = Some (raise SIGUSR1 ;; ret tt).
Proof.
  intros c Hc He.
  assert (H1 : handles (catch_ref std_bad_alloc) (ThrowObject c) = true)
    by (rewrite handles_bad_alloc; exact He).
  split; [exact H1|]. split.
  - cbn [handles] in *. apply chain_bad_alloc_is_exception; assumption.
  - split; cbn [find_handler]; rewrite H1; reflexivity.
Qed.

Lemma first_handler_shadows_second_witness :
  handles (catch_ref std_bad_alloc) (ThrowObject std_bad_array_new_length)
    = true /\
  handles (catch_ref std_exception) (ThrowObject std_bad_array_new_length)
    = true /\
  find_handler
    [ (catch_ref std_bad_alloc, raise SIGUSR1 ;; fall_through);
      (catch_ref std_exception, raise SIGUSR2 ;; fall_through);
      (catch_all,               raise SIGUSR2 ;; fall_through) ]
    (ThrowObject std_bad_array_new_length)
    = Some (raise SIGUSR1 ;; fall_through) /\
  find_handler
    [ (catch_ref std_bad_alloc, raise SIGUSR1 ;; ret tt);
      (catch_ref std_exception, raise SIGUSR2 ;; ret tt);
      (catch_all,               raise SIGUSR2 ;; ret tt) ]
    (ThrowObject std_bad_array_new_length)
    = Some (raise SIGUSR1 ;; ret tt).
Proof.
  exact (first_handler_shadows_second
           std_bad_array_new_length eq_refl eq_refl).
Defined.

(** With several base classes this fails, and the last handler is needed
    for class objects too: [struct E : std::bad_alloc, std::runtime_error]
    is bound by [bad_alloc&] but not by [exception&], of which it holds two
    subobjects; [struct D : std::bad_alloc, std::bad_array_new_length]
    holds two [std::bad_alloc] subobjects and is bound by neither. *)
Example several_bases_and_the_handlers :
  handles (catch_ref std_bad_alloc)
          (ThrowObject bad_alloc_and_runtime_error) = true /\
  handles (catch_ref std_exception)
          (ThrowObject bad_alloc_and_runtime_error) = false /\
  signals_raised
    (trace (world_of
       (entry_redirect_process
          (throw_ (ThrowObject bad_alloc_and_runtime_error)) fresh_world)))
    = [SIGUSR1] /\
  handles (catch_ref std_bad_alloc) (ThrowObject twice_bad_alloc) = false /\
  handles (catch_ref std_exception) (ThrowObject twice_bad_alloc) = false /\
  signals_raised
    (trace (world_of
       (entry_redirect_process
          (throw_ (ThrowObject twice_bad_alloc)) fresh_world)))
    = [SIGUSR2].
Proof. repeat split; reflexivity. Qed.

(** X8. The harnesses differ on a call of [std::terminate()] with no
    exception in flight. Under the entry-redirect harness the default
    handler aborts: the process ends by SIGABRT. Under the hook harness the
    hook finds no current exception and ends the process by [_Exit(0)]:
    exit status 0 and no signal. *)
Theorem terminate_without_exception :
  forall (before : Proc unit) (w0 : world),
    (forall w1,
        before (desynchronized w0) = Normal tt w1 ->
        terminate_slot w1 = default_terminate ->
        entry_redirect_process (before ;; std_terminate) w0 =
          Halt (Killed SIGABRT) (log (Terminated (Killed SIGABRT)) w1))
    /\
    (forall w1,
        before (hook_installed w0) = Normal tt w1 ->
        terminate_slot w1 = stub_on_terminate ->
        current_exc w1 = None ->
        terminate_hook_process (before ;; std_terminate) w0 =
          Halt (Exited 0) (log (Terminated (Exited 0)) w1)).
Proof.
  intros before w0. split; intros w1 Hbefore Hslot.
  - assert (Hsub : (before ;; @std_terminate Z) (desynchronized w0) =
                   Halt (Killed SIGABRT)
                        (log (Terminated (Killed SIGABRT)) w1)).
    { unfold bind. rewrite Hbefore. unfold std_terminate. rewrite Hslot.
      reflexivity. }
    rewrite entry_process_unfold, (main_halts _ _ _ _ Hsub). reflexivity.
  - intros Hexc. rewrite hook_process_unfold.
    unfold bind at 1. rewrite Hbefore. unfold std_terminate. rewrite Hslot.
    unfold bind. rewrite (hook_quiet w1 Hexc). reflexivity.
Qed.

Lemma terminate_without_exception_witness :
  entry_redirect_process (ret tt ;; std_terminate) fresh_world =
    Halt (Killed SIGABRT)
         (log (Terminated (Killed SIGABRT)) (desynchronized fresh_world))
  /\
  terminate_hook_process (ret tt ;; std_terminate) fresh_world =
    Halt (Exited 0)
         (log (Terminated (Exited 0)) (hook_installed fresh_world)).
Proof.
  destruct (terminate_without_exception (ret tt) fresh_world)
    as [Hentry Hhook].
  split.
  - exact (Hentry _ eq_refl eq_refl).
  - exact (Hhook _ eq_refl eq_refl eq_refl).
Defined.
